(** * The France Televisions provider of aspiratv

    A shallow embedding of [providers/francetv/francetv.go]: the catalog
    stream producer [Shows], the detail resolver [GetShowInfo] with its
    wrapper [GetShowStreamURL], and the path builder [GetShowFileName]
    with its alias [GetShowFileNameMatcher].

    Go strings are [string]s, a [*providers.Show] that a method mutates is
    passed in and handed back, and the calls of the injected getter and of
    [log.Printf] are threaded through an explicit world. *)

From Stdlib Require Import String Ascii List ZArith Lia Bool DecimalString.
Import ListNotations.
Local Open Scope list_scope.
Local Open Scope string_scope.

(** A Go [error] is modelled by its message; [nil] is [None]. *)
Definition error := string.

(** ** Package [time] *)
Module time.

(** A [time.Time] is modelled by the civil date it presents in its own
    location, which is all that the two layouts of the provider read. *)
Record Time := mkTime { Year : Z; Month : Z; Day : Z }.

Definition Duration := Z.

(** The chunks into which [Time.Format] cuts a layout. *)
Inductive chunk :=
| stdLongYear
| stdZeroMonth
| stdZeroDay
| literal (s : string).

(** The layout "2006". *)
Definition layout_2006 : list chunk := [stdLongYear].

(** The layout "2006-01-02". *)
Definition layout_2006_01_02 : list chunk :=
  [stdLongYear; literal "-"; stdZeroMonth; literal "-"; stdZeroDay].

Definition digits (u : Z) : string :=
  NilZero.string_of_uint (N.to_uint (Z.to_N u)).

Fixpoint zeros (n : nat) : string :=
  match n with
  | O => ""
  | S k => String "0" (zeros k)
  end.

(** [appendInt]: the decimal form of [x], padded with zeros to [width],
    after the sign. *)
Definition appendInt (x : Z) (width : nat) : string :=
  let d := digits (Z.abs x) in
  (if (x <? 0)%Z then "-" else "") ++ zeros (width - String.length d) ++ d.

Definition formatChunk (t : Time) (c : chunk) : string :=
  match c with
  | stdLongYear => appendInt (Year t) 4
  | stdZeroMonth => appendInt (Month t) 2
  | stdZeroDay => appendInt (Day t) 2
  | literal s => s
  end.

Fixpoint Format (t : Time) (layout : list chunk) : string :=
  match layout with
  | [] => ""
  | c :: rest => formatChunk t c ++ Format t rest
  end.

End time.

(** ** Package [strings] *)
Module strings.

Definition Join (elems : list string) (sep : string) : string :=
  String.concat sep elems.

End strings.

(** ** Package [path/filepath], with the separator [/] *)
Module filepath.

Fixpoint split (path : string) : list string :=
  match path with
  | EmptyString => [""]
  | String c rest =>
      if Ascii.eqb c "/" then "" :: split rest
      else match split rest with
           | [] => [String c ""]
           | h :: t => String c h :: t
           end
  end.

(** The elements that [Clean] keeps, the last one kept first in [out]:
    empty and [.] elements are dropped, a [..] removes the element before
    it, is dropped at the root, and is kept at the start of a relative
    path. *)
Fixpoint cleanElems (rooted : bool) (out : list string) (elems : list string)
  : list string :=
  match elems with
  | [] => rev out
  | e :: rest =>
      if (e =? "") || (e =? ".") then cleanElems rooted out rest
      else if e =? ".." then
        match out with
        | top :: out' =>
            if top =? ".." then cleanElems rooted (e :: out) rest
            else cleanElems rooted out' rest
        | [] =>
            if rooted then cleanElems rooted [] rest
            else cleanElems rooted [e] rest
        end
      else cleanElems rooted (e :: out) rest
  end.

Definition Clean (path : string) : string :=
  let rooted := prefix "/" path in
  let out := (if rooted then "/" else "")
             ++ strings.Join (cleanElems rooted [] (split path)) "/" in
  if out =? "" then "." else out.

(** [Join] skips the leading empty elements, joins the others with the
    separator and cleans the result. *)
Fixpoint Join (elem : list string) : string :=
  match elem with
  | [] => ""
  | e :: rest =>
      if e =? "" then Join rest else Clean (strings.Join elem "/")
  end.

End filepath.

(** ** Package [providers] *)
Module providers.

(** The record the providers share.  The Go field [Show] is [Show_] here,
    the record having the name. *)
Record Show := mkShow {
  ID : string;
  Show_ : string;
  Title : string;
  Season : string;
  Episode : string;
  Pitch : string;
  AirDate : time.Time;
  Channel : string;
  Detailed : bool;
  DRM : bool;
  Duration : time.Duration;
  Category : string;
  Provider : string;
  ShowURL : string;
  StreamURL : string;
  ThumbnailURL : string
}.

Definition set_ThumbnailURL (v : string) (s : Show) : Show :=
  mkShow (ID s) (Show_ s) (Title s) (Season s) (Episode s) (Pitch s)
         (AirDate s) (Channel s) (Detailed s) (DRM s) (Duration s)
         (Category s) (Provider s) (ShowURL s) (StreamURL s) v.

Definition set_StreamURL (v : string) (s : Show) : Show :=
  mkShow (ID s) (Show_ s) (Title s) (Season s) (Episode s) (Pitch s)
         (AirDate s) (Channel s) (Detailed s) (DRM s) (Duration s)
         (Category s) (Provider s) (ShowURL s) v (ThumbnailURL s).

Definition set_Detailed (v : bool) (s : Show) : Show :=
  mkShow (ID s) (Show_ s) (Title s) (Season s) (Episode s) (Pitch s)
         (AirDate s) (Channel s) v (DRM s) (Duration s)
         (Category s) (Provider s) (ShowURL s) (StreamURL s) (ThumbnailURL s).

(** The functions of the package that the provider calls.  Their code is
    not part of [francetv.go]: the provider is verified for every
    implementation of them.  [IsShowMatch] is a predicate: it reads the
    show it is handed and changes nothing. *)
Class Package (MatchRequest : Type) := {
  IsShowMatch : list MatchRequest -> Show -> bool;
  PathNameCleaner : string -> string;
  FileNameCleaner : string -> string;
  Format2Digits : string -> string
}.

End providers.

(** ** Package [francetv] *)
Module francetv.

(** *** Provider constants *)
Definition ProviderName := "francetv".

(** [WSListURL] is cut at its verb [%d]: what stands before and after. *)
Definition WSListURL : string * string :=
  ("http://pluzz.webservices.francetelevisions.fr/pluzz/liste/type/replay/nb/",
   "/debut/0").

Definition WSInfoOeuvre :=
  "http://webservices.francetelevisions.fr/tools/getInfosOeuvre/v2/?catalogue=Pluzz&idDiffusion=".

(** [fmt.Sprintf] of a format with the one verb [%d]. *)
Definition Sprintf_d (format : string * string) (n : Z) : string :=
  fst format ++ time.appendInt n 0 ++ snd format.

(** The format identifier that [GetShowInfo] looks for. *)
Definition hls_v5_os := "hls_v5_os".

(** *** The decoded JSON documents *)

(** Modelled from the spec: the declaration of [pluzzList] is not in
    [francetv.go].  An entry of the catalog has the fields that [Shows]
    reads, with the types their use gives them; the "UTC timestamp" and the
    "duration" stand as the [time.Time] and the [time.Duration] that the
    conversions of [Shows] make of them. *)
Record emission := mkEmission {
  IDDiffusion : string;
  Titre : string;
  Soustitre : string;
  Saison : string;
  Episode : string;
  Accroche : string;
  TsDiffusionUtc : time.Time;
  ChaineID : string;
  DureeReelle : Z;
  Rubrique : string;
  OasSitepage : string;
  ImageLarge : string
}.

Record reponse := mkReponse { Emissions : list emission }.

Record pluzzList := mkPluzzList { Reponse : reponse }.

(** Modelled from the spec: the declaration of [infoOeuvre] is not in
    [francetv.go].  The detail document holds "a secure thumbnail URL and
    an ordered list of {format, url} rendition descriptors". *)
Record video := mkVideo { Format : string; URL : string }.

Record infoOeuvre := mkInfoOeuvre { ImageSecure : string; Videos : list video }.

(** The zero values that the decoders start from. *)
Definition pluzzList_zero : pluzzList := mkPluzzList (mkReponse []).

Definition infoOeuvre_zero : infoOeuvre := mkInfoOeuvre "" [].

(** *** What the provider is handed *)

(** The interface [getter]: [Get] answers a stream or an error, and may
    change the getter. *)
Class getter (G ReadCloser : Type) := {
  Get : G -> string -> (ReadCloser + error) * G
}.

(** [json.NewDecoder(r).Decode(v)] for the two documents, [v] being at its
    zero value: what [v] holds afterwards and the error.  [Decode] may have
    filled a part of [v] when it answers an error. *)
Class Decoder (ReadCloser : Type) := {
  Decode_pluzzList : ReadCloser -> pluzzList * option error;
  Decode_infoOeuvre : ReadCloser -> infoOeuvre * option error
}.

(** A call of [log.Printf]: its format and its arguments. *)
Record logRecord := mkLog { log_format : string; log_args : list string }.

(** The ways a call of [GetShowInfo] fails: the three of the specification,
    and a fourth one that the code has, a first rendition of the target
    format that has no URL. *)
Variant failure := transportFailure | decodeFailure | noRendition | emptyURL.

Section Provider.

Context {G ReadCloser MatchRequest : Type}.
Context {getter_G : getter G ReadCloser}.
Context {json : Decoder ReadCloser}.
Context {pkg : providers.Package MatchRequest}.

(** [strings.TrimSpace], of the Go library. *)
Variable TrimSpace : string -> string.

(** The world of a call: the getter of the [FranceTV] value, the URLs asked
    of it so far and the lines logged so far, the oldest first. *)
Record World := mkWorld {
  ftv_getter : G;
  requests : list string;
  logged : list logRecord
}.

(** Computations in a world. *)
Definition M (A : Type) : Type := World -> A * World.

Definition ret {A} (a : A) : M A := fun w => (a, w).

Definition bind {A B} (m : M A) (k : A -> M B) : M B :=
  fun w => let (a, w') := m w in k a w'.

Notation "x <- m ;; k" := (bind m (fun x => k))
  (at level 61, m at next level, right associativity).
Notation "m ;;; k" := (bind m (fun _ => k))
  (at level 61, right associativity).

(** [ftv.getter.Get(uri)] *)
Definition ftv_Get (uri : string) : M (ReadCloser + error) :=
  fun w =>
    let (r, g) := Get (ftv_getter w) uri in
    (r, mkWorld g (requests w ++ [uri])%list (logged w)).

(** [log.Printf(format, args...)] *)
Definition log_Printf (format : string) (args : list string) : M unit :=
  fun w =>
    (tt, mkWorld (ftv_getter w) (requests w)
                 (logged w ++ [mkLog format args])%list).

(** *** [Shows] *)

(** The body of the loop of [Shows]: the JSON object as a [providers.Show]. *)
Definition showOf (e : emission) : providers.Show :=
  {| providers.ID := IDDiffusion e;
     providers.Show_ := TrimSpace (Titre e);
     providers.Title := TrimSpace (Soustitre e);
     providers.Season := Saison e;
     providers.Episode := Episode e;
     providers.Pitch := TrimSpace (Accroche e);
     providers.AirDate := TsDiffusionUtc e;
     providers.Channel := ChaineID e;
     providers.Detailed := false;
     providers.DRM := false;
     providers.Duration := DureeReelle e;
     providers.Category := TrimSpace (Rubrique e);
     providers.Provider := ProviderName;
     providers.ShowURL := OasSitepage e;
     providers.StreamURL := "";
     providers.ThumbnailURL := ImageLarge e |}.

(** The loop of [Shows] over the entries: the shows sent on the channel, in
    the order of the sends. *)
Fixpoint rangeEmissions (mm : list MatchRequest) (es : list emission)
  : list providers.Show :=
  match es with
  | [] => []
  | e :: rest =>
      let show := showOf e in
      if providers.IsShowMatch mm show
      then show :: rangeEmissions mm rest
      else rangeEmissions mm rest
  end.

(** [Shows]: the shows that the goroutine sends on the channel before it
    closes it.  The channel is all that the caller gets. *)
Definition Shows (mm : list MatchRequest) : M (list providers.Show) :=
  let url := Sprintf_d WSListURL 3000 in
  r <- ftv_Get url ;;
  match r with
  | inr err =>
      log_Printf "[%s] Can't call catalog API: %q" [err] ;;;
      ret []
  | inl r =>
      let (list, err) := Decode_pluzzList r in
      match err with
      | Some err => log_Printf "[%s] Can't decode catalog: %q" [err]
      | None => ret tt
      end ;;;
      ret (rangeEmissions mm (Emissions (Reponse list)))
  end.

(** *** [GetShowInfo] *)

(** The loop of [GetShowInfo] over the renditions, left at the first one
    with the format [hls_v5_os]. *)
Fixpoint rangeVideos (vs : list video) (s : providers.Show) : providers.Show :=
  match vs with
  | [] => s
  | v :: rest =>
      if Format v =? hls_v5_os
      then providers.set_StreamURL (URL v) s
      else rangeVideos rest s
  end.

(** [GetShowInfo]: the error, and the show as the call leaves it. *)
Definition GetShowInfo (s : providers.Show) : M (option error * providers.Show) :=
  if providers.Detailed s then ret (None, s)
  else
    let url := WSInfoOeuvre ++ providers.ID s in
    r <- ftv_Get url ;;
    match r with
    | inr err =>
        ret (Some ("Can't get show's detailed information: " ++ err), s)
    | inl r =>
        let (i, err) := Decode_infoOeuvre r in
        match err with
        | Some err =>
            ret (Some ("Can't decode show's detailed information: " ++ err), s)
        | None =>
            let s := providers.set_ThumbnailURL (ImageSecure i) s in
            let s := rangeVideos (Videos i) s in
            if providers.StreamURL s =? ""
            then ret (Some "Can't find hls_v5_os stream for the show", s)
            else ret (None, providers.set_Detailed true s)
        end
    end.

(** [GetShowStreamURL] *)
Definition GetShowStreamURL (s : providers.Show)
  : M ((string * option error) * providers.Show) :=
  if providers.StreamURL s =? "" then
    r <- GetShowInfo s ;;
    match r with
    | (Some err, s) =>
        ret (("", Some ("Can't get detailed information for the show: " ++ err)), s)
    | (None, s) => ret ((providers.StreamURL s, None), s)
    end
  else ret ((providers.StreamURL s, None), s).

(** *** [GetShowFileName] *)
Definition GetShowFileName (s : providers.Show) : string :=
  let showPath := providers.PathNameCleaner (providers.Show_ s) in
  let seasonPath :=
    if providers.Season s =? ""
    then "Season " ++ time.Format (providers.AirDate s) time.layout_2006
    else "Season " ++ providers.Format2Digits (providers.Season s) in
  let episodePath :=
    if providers.Episode s =? ""
    then providers.FileNameCleaner (providers.Show_ s) ++ " - "
         ++ time.Format (providers.AirDate s) time.layout_2006_01_02
    else providers.FileNameCleaner (providers.Show_ s) ++ " - s"
         ++ providers.Format2Digits (providers.Season s) ++ "e"
         ++ providers.Format2Digits (providers.Episode s) in
  let episodePath :=
    if (providers.Episode s =? "")
       && ((providers.Title s =? "") || (providers.Title s =? providers.Show_ s))
    then episodePath ++ " - " ++ providers.ID s ++ ".mp4"
    else if negb (providers.Title s =? "")
            && negb (providers.Title s =? providers.Show_ s)
    then episodePath ++ " - " ++ providers.FileNameCleaner (providers.Title s) ++ ".mp4"
    else episodePath ++ ".mp4" in
  filepath.Join [showPath; seasonPath; episodePath].

(** [GetShowFileNameMatcher] *)
Definition GetShowFileNameMatcher (s : providers.Show) : string :=
  GetShowFileName s.

(** *** What a call meets

    The properties speak of what the getter and the decoder answer to a call;
    these read it off the world the call starts in. *)

(** The detail document that a call of [GetShowInfo] on [s] decodes, when
    the getter answers a stream and [Decode] answers no error. *)
Definition payloadOf (s : providers.Show) (w : World) : option infoOeuvre :=
  match fst (Get (ftv_getter w) (WSInfoOeuvre ++ providers.ID s)) with
  | inr _ => None
  | inl r =>
      match Decode_infoOeuvre r with
      | (i, None) => Some i
      | (_, Some _) => None
      end
  end.

Definition hasFormat (format : string) (v : video) : bool :=
  Format v =? format.

(** The failure that a call of [GetShowInfo] on [s] meets: the transport
    fails, the decoding fails, no rendition has the target format, or the
    first rendition that has it has no URL.  A show that is detailed meets
    none, the call returning at once. *)
Definition failureOf (s : providers.Show) (w : World) : option failure :=
  if providers.Detailed s then None
  else
    match fst (Get (ftv_getter w) (WSInfoOeuvre ++ providers.ID s)) with
    | inr _ => Some transportFailure
    | inl r =>
        match Decode_infoOeuvre r with
        | (_, Some _) => Some decodeFailure
        | (i, None) =>
            match find (hasFormat hls_v5_os) (Videos i) with
            | None => Some noRendition
            | Some v => if URL v =? "" then Some emptyURL else None
            end
        end
    end.

(** The entries that [Decode] leaves in the list of a call of [Shows]: none
    when the getter answers an error. *)
Definition entriesOf (w : World) : list emission :=
  match fst (Get (ftv_getter w) (Sprintf_d WSListURL 3000)) with
  | inr _ => []
  | inl r => Emissions (Reponse (fst (Decode_pluzzList r)))
  end.

(** The error of a call, and the show as the call leaves it. *)
Definition errorOf {A B W : Type} (r : (option A * B) * W) : option A :=
  fst (fst r).

Definition showAfter {A B W : Type} (r : (A * B) * W) : B := snd (fst r).

End Provider.

Arguments World : clear implicits.
Arguments M : clear implicits.

(** *** [New], [WithGetter] and [Name] *)
Section Construction.

(** The getters that a [FranceTV] can hold, and [http.DefaultClient]
    among them. *)
Context {G : Type}.
Variable DefaultClient : G.

(** The structure [FranceTV]; its field [getter] is [getter_] here, the
    interface having the name. *)
Record FranceTV := mkFranceTV { getter_ : G }.

(** [WithGetter]: the option assigns the field through the pointer it is
    handed. *)
Definition WithGetter (g : G) : FranceTV -> FranceTV :=
  fun ftv => mkFranceTV g.

(** [New]: the options run in their order on a [FranceTV] that holds the
    default client; the error is always [nil]. *)
Definition New (conf : list (FranceTV -> FranceTV)) : FranceTV * option error :=
  (fold_left (fun ftv fn => fn ftv) conf (mkFranceTV DefaultClient), None).

(** [Name] *)
Definition Name (ftv : FranceTV) : string := "francetv".

(** The world in which the first call on a [FranceTV] runs. *)
Definition worldOf (ftv : FranceTV) : World G :=
  mkWorld (getter_ ftv) [] [].

End Construction.

Arguments FranceTV : clear implicits.

(** *** The parts of a path and of a result *)

(** The two paths that [GetShowFileName] joins to the path of the show,
    as it computes them. *)
Section Paths.

Context {MatchRequest : Type} {pkg : providers.Package MatchRequest}.

Definition seasonPath (s : providers.Show) : string :=
  if providers.Season s =? ""
  then "Season " ++ time.Format (providers.AirDate s) time.layout_2006
  else "Season " ++ providers.Format2Digits (providers.Season s).

Definition episodePath (s : providers.Show) : string :=
  let episodePath :=
    if providers.Episode s =? ""
    then providers.FileNameCleaner (providers.Show_ s) ++ " - "
         ++ time.Format (providers.AirDate s) time.layout_2006_01_02
    else providers.FileNameCleaner (providers.Show_ s) ++ " - s"
         ++ providers.Format2Digits (providers.Season s) ++ "e"
         ++ providers.Format2Digits (providers.Episode s) in
  if (providers.Episode s =? "")
     && ((providers.Title s =? "") || (providers.Title s =? providers.Show_ s))
  then episodePath ++ " - " ++ providers.ID s ++ ".mp4"
  else if negb (providers.Title s =? "")
          && negb (providers.Title s =? providers.Show_ s)
  then episodePath ++ " - " ++ providers.FileNameCleaner (providers.Title s) ++ ".mp4"
  else episodePath ++ ".mp4".

End Paths.

(** A string without the separator. *)
Fixpoint noSlash (s : string) : bool :=
  match s with
  | EmptyString => true
  | String c rest => negb (Ascii.eqb c "/") && noSlash rest
  end.

(** An element that [filepath.Clean] keeps as it is: it has no separator
    and is none of the empty string, [.] and [..]. *)
Definition plain (e : string) : bool :=
  noSlash e && negb (e =? "") && negb (e =? ".") && negb (e =? "..").

(** [s] ends with [suffix]. *)
Definition endsWith (suffix s : string) : Prop :=
  exists before, s = before ++ suffix.

(** The URL and the error that a call of [GetShowStreamURL] returns. *)
Definition urlOf {A B C W : Type} (r : ((A * B) * C) * W) : A :=
  fst (fst (fst r)).

Definition urlErrorOf {A B C W : Type} (r : ((A * B) * C) * W) : B :=
  snd (fst (fst r)).

(** *** Canned getters and decoders, to run the provider on

    The tests of the provider inject a getter that answers canned payloads;
    this one does the same, and the decoder and the helpers of [providers]
    that go with it are as simple. *)
Module canned.

(** A stream stands for the document that [Decode] reads from it, with the
    error that [Decode] answers. *)
Inductive stream :=
| catalog (list : pluzzList) (err : option error)
| info (i : infoOeuvre) (err : option error).

(** The getter answers from a table of URLs and counts its calls. *)
Record client := mkClient {
  table : list (string * stream);
  calls : nat
}.

Fixpoint lookup (uri : string) (t : list (string * stream)) : option stream :=
  match t with
  | [] => None
  | (u, r) :: rest => if u =? uri then Some r else lookup uri rest
  end.

#[export] Instance client_getter : getter client stream := {|
  Get g uri :=
    (match lookup uri (table g) with
     | Some r => inl r
     | None => inr "404 Not Found"
     end,
     mkClient (table g) (S (calls g)))
|}.

(** A document of the other kind has none of the fields looked for: it
    decodes to the zero value. *)
#[export] Instance stream_Decoder : Decoder stream := {|
  Decode_pluzzList r :=
    match r with
    | catalog list err => (list, err)
    | info _ _ => (pluzzList_zero, None)
    end;
  Decode_infoOeuvre r :=
    match r with
    | info i err => (i, err)
    | catalog _ _ => (infoOeuvre_zero, None)
    end
|}.

(** Modelled from the spec: the code of [providers.Format2Digits] is not in
    [francetv.go]; the number is "zero-padded to 2 digits". *)
Definition pad2 (d : string) : string :=
  time.zeros (2 - String.length d) ++ d.

(** A match request is the name of a show; the cleaners keep their
    argument. *)
#[export] Instance byName : providers.Package string := {|
  providers.IsShowMatch mm s := existsb (String.eqb (providers.Show_ s)) mm;
  providers.PathNameCleaner x := x;
  providers.FileNameCleaner x := x;
  providers.Format2Digits := pad2
|}.

(** [strings.TrimSpace] on ASCII text. *)
Definition isSpace (c : ascii) : bool :=
  existsb (Ascii.eqb c) (map ascii_of_nat [9; 10; 11; 12; 13; 32]%nat).

Fixpoint trimLeft (s : string) : string :=
  match s with
  | EmptyString => ""
  | String c rest => if isSpace c then trimLeft rest else s
  end.

Fixpoint trimRight (s : string) : string :=
  match s with
  | EmptyString => ""
  | String c rest =>
      let rest' := trimRight rest in
      if isSpace c && (rest' =? "") then "" else String c rest'
  end.

Definition TrimSpace (s : string) : string := trimRight (trimLeft s).

(** A catalog of three entries, and the payloads of the detail endpoint. *)
Definition entry (id titre soustitre saison episode : string) : emission :=
  mkEmission id titre soustitre saison episode "" (time.mkTime 2023 5 1)
             "france2" 1800 "info" "" "http://img/large.jpg".

Definition journal := entry "abc123" " Le Journal " "" "" "".
Definition drama := entry "d25" "Drama" "Pilot " "2" "5".
Definition anonymous := entry "" "Drama" "" "2" "6".

Definition catalogURL := Sprintf_d WSListURL 3000.

Definition client_of (t : list (string * stream)) : client := mkClient t 0.

(** A show as [Shows] emits it, and the same show with a stream URL left
    from elsewhere. *)
Definition summary : providers.Show :=
  providers.mkShow "abc123" "Le Journal" "" "" "" "" (time.mkTime 2023 5 1)
                   "france2" false false 1800%Z "info" "francetv" ""
                   "" "http://img/large.jpg".

Definition preset : providers.Show :=
  providers.set_StreamURL "http://old/master.m3u8" summary.

Definition detailed : providers.Show :=
  providers.set_Detailed true preset.

Definition infoURL := WSInfoOeuvre ++ "abc123".

Definition hls (url : string) : video := mkVideo hls_v5_os url.
Definition mp4 (url : string) : video := mkVideo "mp4-dp" url.


(** A world where nothing was asked or logged yet. *)
Definition world (t : list (string * stream)) : World client :=
  mkWorld (client_of t) [] [].

(** The catalog endpoint answers three entries, the last without an
    identifier; or two entries with one; or an entry and then a value that
    does not fit its field, on which [Decode] answers an error after it
    has filled the entry. *)
Definition catalog3 : list (string * stream) :=
  [(catalogURL, catalog (mkPluzzList (mkReponse [journal; drama; anonymous])) None)].

Definition catalog2 : list (string * stream) :=
  [(catalogURL, catalog (mkPluzzList (mkReponse [journal; drama])) None)].

Definition unmarshalTypeError : error :=
  "json: cannot unmarshal number into Go struct field of type string".

Definition brokenCatalog : list (string * stream) :=
  [(catalogURL,
    catalog (mkPluzzList (mkReponse [journal])) (Some unmarshalTypeError))].

(** The detail endpoint answers a document with no rendition of the target
    format; with two of them, the first without a URL; with two of them
    after one of another format. *)
Definition otherFormat : infoOeuvre :=
  mkInfoOeuvre "https://img/secure.jpg" [mp4 "http://v/a.mp4"].

Definition emptyFirst : infoOeuvre :=
  mkInfoOeuvre "https://img/secure.jpg" [hls ""; hls "http://v/master.m3u8"].

Definition twoStreams : infoOeuvre :=
  mkInfoOeuvre "https://img/secure.jpg"
               [mp4 "http://v/a.mp4"; hls "http://v/master.m3u8";
                hls "http://v/other.m3u8"].

Definition detail (i : infoOeuvre) : list (string * stream) :=
  [(infoURL, info i None)].

(** Two more shows, for the examples of the path builder. *)
Definition pilot : providers.Show :=
  providers.mkShow "d25" "Drama" "Pilot" "2" "5" "" (time.mkTime 2023 5 1)
                   "france2" false false 1800%Z "info" "francetv" ""
                   "" "http://img/large.jpg".

Definition untitled : providers.Show :=
  providers.mkShow "d26" "Drama" "Drama" "2" "5" "" (time.mkTime 2023 5 8)
                   "france2" false false 1800%Z "info" "francetv" ""
                   "" "http://img/large.jpg".

End canned.

(** ** Properties of the provider *)

Section ProviderFacts.

Context {G ReadCloser MatchRequest : Type}.
Context {getter_G : getter G ReadCloser}.
Context {json : Decoder ReadCloser}.
Context {pkg : providers.Package MatchRequest}.
Variable TrimSpace : string -> string.

#[local] Abbreviation World := (World G).
#[local] Abbreviation showOf := (showOf TrimSpace).
#[local] Abbreviation rangeEmissions := (rangeEmissions TrimSpace).
#[local] Abbreviation Shows := (Shows TrimSpace).


Ltac run :=
  unfold GetShowInfo, Shows, failureOf, payloadOf, entriesOf, errorOf,
    showAfter, bind, ret, ftv_Get, log_Printf in *;
  cbn [fst snd] in *.

(** *** The loop over the renditions *)

Lemma rangeVideos_no_format (vs : list video) (s : providers.Show) :
  existsb (hasFormat hls_v5_os) vs = false -> rangeVideos vs s = s.
Proof.
  induction vs as [|v vs IH]; cbn; [reflexivity|].
  unfold hasFormat at 1.
  destruct (Format v =? hls_v5_os); cbn; [discriminate | exact IH].
Qed.

Lemma rangeVideos_none (vs : list video) (s : providers.Show) :
  find (hasFormat hls_v5_os) vs = None -> rangeVideos vs s = s.
Proof.
  induction vs as [|v vs IH]; cbn; [reflexivity|].
  unfold hasFormat at 1.
  destruct (Format v =? hls_v5_os); [discriminate | exact IH].
Qed.

Lemma rangeVideos_first (vs : list video) (s : providers.Show) (v : video) :
  find (hasFormat hls_v5_os) vs = Some v ->
  rangeVideos vs s = providers.set_StreamURL (URL v) s.
Proof.
  induction vs as [|v' vs IH]; cbn; [discriminate|].
  unfold hasFormat at 1.
  destruct (Format v' =? hls_v5_os).
  - intros [= ->]. reflexivity.
  - exact IH.
Qed.

Lemma no_format_existsb (vs : list video) :
  (forall v, In v vs -> Format v <> hls_v5_os) ->
  existsb (hasFormat hls_v5_os) vs = false.
Proof.
  intros H. induction vs as [|v vs IH]; cbn; [reflexivity|].
  rewrite IH by (intros v' Hv'; apply H; right; exact Hv').
  unfold hasFormat.
  destruct (String.eqb_spec (Format v) hls_v5_os) as [E|E]; [|reflexivity].
  exfalso. apply (H v); [left; reflexivity | exact E].
Qed.

Lemma rangeVideos_Detailed (vs : list video) (s : providers.Show) :
  providers.Detailed (rangeVideos vs s) = providers.Detailed s.
Proof.
  induction vs as [|v vs IH]; cbn; [reflexivity|].
  destruct (Format v =? hls_v5_os); [reflexivity | exact IH].
Qed.

(** *** The loop over the entries *)

Lemma rangeEmissions_filter (mm : list MatchRequest) (es : list emission) :
  rangeEmissions mm es = filter (providers.IsShowMatch mm) (map showOf es).
Proof.
  induction es as [|e es IH]; cbn; [reflexivity|].
  rewrite IH. reflexivity.
Qed.

Lemma Shows_rangeEmissions (mm : list MatchRequest) (w : World) :
  fst (Shows mm w) = rangeEmissions mm (entriesOf w).
Proof.
  run. destruct (Get (ftv_getter w) _) as [[r|e] g]; cbn; [|reflexivity].
  destruct (Decode_pluzzList r) as [l [e|]]; reflexivity.
Qed.

(** The entries of a call are those of the list that [Decode] filled,
    whether it answered an error or not. *)
Lemma entriesOf_decoded (w : World) (r : ReadCloser) (g : G)
      (l : pluzzList) (err : option error) :
  Get (ftv_getter w) (Sprintf_d WSListURL 3000) = (inl r, g) ->
  Decode_pluzzList r = (l, err) ->
  entriesOf w = Emissions (Reponse l).
Proof.
  intros E D. run. rewrite E. cbn. rewrite D. reflexivity.
Qed.

(** X2: a transport failure closes the stream at once: nothing is emitted,
    and the error goes to the log. *)
Lemma Shows_transport_failure (mm : list MatchRequest) (w : World)
      (err : error) (g : G) :
  Get (ftv_getter w) (Sprintf_d WSListURL 3000) = (inr err, g) ->
  Shows mm w =
  ([], mkWorld g (requests w ++ [Sprintf_d WSListURL 3000])%list
               (logged w ++ [mkLog "[%s] Can't call catalog API: %q" [err]])%list).
Proof.
  intros E. run. rewrite E. reflexivity.
Qed.

(** After a decode failure the loop still runs, over what [Decode] left in
    the list. *)
Lemma Shows_decode_failure (mm : list MatchRequest) (w : World)
      (r : ReadCloser) (g : G) (l : pluzzList) (err : error) :
  Get (ftv_getter w) (Sprintf_d WSListURL 3000) = (inl r, g) ->
  Decode_pluzzList r = (l, Some err) ->
  Shows mm w =
  (rangeEmissions mm (Emissions (Reponse l)),
   mkWorld g (requests w ++ [Sprintf_d WSListURL 3000])%list
           (logged w ++ [mkLog "[%s] Can't decode catalog: %q" [err]])%list).
Proof.
  intros E D. run. rewrite E, D. reflexivity.
Qed.

(** *** The detail resolver *)

(** C5: on a show that is already detailed, [GetShowInfo] returns [nil] at
    once: the show is left as it was and so is the world, where a call of
    the getter would have left its URL among the requests. *)
Theorem GetShowInfo_detailed_is_noop (s : providers.Show) (w : World) :
  providers.Detailed s = true ->
  GetShowInfo s w = ((None, s), w).
Proof.
  intros D. unfold GetShowInfo. rewrite D. reflexivity.
Qed.

(** C1, as amended: a call of [GetShowInfo] returns an error exactly when
    it meets a failure, a payload with no rendition of the target format
    being one when the show has no stream URL yet; and every call that
    returns an error leaves [Detailed] as it was, leaves [StreamURL] as it
    was unless the first rendition of the target format has no URL, the
    stream URL being empty then, and leaves the whole show as it was,
    [ThumbnailURL] included, when the transport or the decoding fails. *)
Theorem GetShowInfo_failure_keeps (s : providers.Show) (w : World) :
  (errorOf (GetShowInfo s w) <> None
   <-> exists k, failureOf s w = Some k
                 /\ (k = noRendition -> providers.StreamURL s = ""))
  /\ forall k,
      failureOf s w = Some k ->
      (k = noRendition -> providers.StreamURL s = "") ->
      providers.Detailed (showAfter (GetShowInfo s w)) = providers.Detailed s
      /\ (k <> emptyURL ->
          providers.StreamURL (showAfter (GetShowInfo s w))
          = providers.StreamURL s)
      /\ (k = emptyURL ->
          providers.StreamURL (showAfter (GetShowInfo s w)) = "")
      /\ (k = transportFailure \/ k = decodeFailure ->
          showAfter (GetShowInfo s w) = s).
Proof.
  run.
  destruct (providers.Detailed s) eqn:D.
  { cbn. split.
    - split; [intros H; contradiction | intros (k & F & _); discriminate].
    - intros k F. discriminate. }
  destruct (Get (ftv_getter w) _) as [[r|e] g]; cbn [fst snd] in *.
  2:{ split.
      - split; [intros _; exists transportFailure; split; [reflexivity | discriminate]
               | intros _; discriminate].
      - intros k [= <-] _. cbn. repeat split; congruence. }
  destruct (Decode_infoOeuvre r) as [i [e|]].
  { split.
    - split; [intros _; exists decodeFailure; split; [reflexivity | discriminate]
             | intros _; discriminate].
    - intros k [= <-] _. cbn. repeat split; congruence. }
  destruct (find (hasFormat hls_v5_os) (Videos i)) as [v|] eqn:X.
  - rewrite (rangeVideos_first _ _ _ X). cbn.
    destruct (String.eqb_spec (URL v) "") as [E|E]; cbn.
    + split.
      * split; [intros _; exists emptyURL; split; [reflexivity | discriminate]
               | intros _; discriminate].
      * intros k [= <-] _. repeat split; try congruence.
        intros [H|H]; discriminate.
    + split.
      * split; [intros H; contradiction | intros (k & F & _); discriminate].
      * intros k F. discriminate.
  - rewrite (rangeVideos_none _ _ X). cbn.
    destruct (String.eqb_spec (providers.StreamURL s) "") as [E|E]; cbn.
    + split.
      * split; [intros _; exists noRendition; split; [reflexivity | intros _; exact E]
               | intros _; discriminate].
      * intros k [= <-] _. repeat split; try congruence.
        intros [H|H]; discriminate.
    + split.
      * split; [intros H; contradiction|].
        intros (k & [= <-] & U). exfalso. exact (E (U eq_refl)).
      * intros k [= <-] U. exfalso. exact (E (U eq_refl)).
Qed.

(** C6, as amended: when the first rendition of the target format has a
    URL, [GetShowInfo] returns [nil], and the show has that URL as its
    stream URL, the secure thumbnail of the document, and is detailed. *)
Theorem GetShowInfo_first_rendition (s : providers.Show) (w : World)
        (i : infoOeuvre) (v : video) :
  providers.Detailed s = false ->
  payloadOf s w = Some i ->
  find (hasFormat hls_v5_os) (Videos i) = Some v ->
  URL v <> "" ->
  errorOf (GetShowInfo s w) = None
  /\ providers.StreamURL (showAfter (GetShowInfo s w)) = URL v
  /\ providers.ThumbnailURL (showAfter (GetShowInfo s w)) = ImageSecure i
  /\ providers.Detailed (showAfter (GetShowInfo s w)) = true.
Proof.
  intros D P Fv U. run. rewrite D.
  destruct (Get (ftv_getter w) _) as [[r|e] g]; cbn [fst snd] in *;
    [|discriminate].
  destruct (Decode_infoOeuvre r) as [i' [e|]]; [discriminate|].
  injection P as ->.
  rewrite (rangeVideos_first _ _ _ Fv). cbn.
  destruct (String.eqb_spec (URL v) "") as [E|E]; [contradiction|].
  cbn. repeat split.
Qed.

(** C10, as amended: on a show that is not detailed and has a stream URL
    already, a document in which the first rendition of the target format,
    if there is one, has a URL makes [GetShowInfo] return [nil]: the show
    is detailed, with the secure thumbnail of the document; and when no
    rendition has the target format, with the stream URL it had. *)
Theorem GetShowInfo_preset_stream (s : providers.Show) (w : World)
        (i : infoOeuvre) :
  providers.Detailed s = false ->
  providers.StreamURL s <> "" ->
  payloadOf s w = Some i ->
  (forall v, find (hasFormat hls_v5_os) (Videos i) = Some v -> URL v <> "") ->
  errorOf (GetShowInfo s w) = None
  /\ providers.Detailed (showAfter (GetShowInfo s w)) = true
  /\ providers.ThumbnailURL (showAfter (GetShowInfo s w)) = ImageSecure i
  /\ ((forall v, In v (Videos i) -> Format v <> hls_v5_os) ->
      showAfter (GetShowInfo s w)
      = providers.set_Detailed true
          (providers.set_ThumbnailURL (ImageSecure i) s)).
Proof.
  intros D U P N. run. rewrite D.
  destruct (Get (ftv_getter w) _) as [[r|e] g]; cbn [fst snd] in *;
    [|discriminate].
  destruct (Decode_infoOeuvre r) as [i' [e|]]; [discriminate|].
  injection P as ->.
  destruct (find (hasFormat hls_v5_os) (Videos i)) as [v|] eqn:X.
  - rewrite (rangeVideos_first _ _ _ X). cbn.
    destruct (String.eqb_spec (URL v) "") as [E|E];
      [exfalso; exact (N v eq_refl E)|].
    cbn. repeat split.
    intros A. exfalso.
    apply find_some in X. destruct X as [Xi Xf].
    apply String.eqb_eq in Xf. exact (A v Xi Xf).
  - rewrite (rangeVideos_none _ _ X). cbn.
    destruct (String.eqb_spec (providers.StreamURL s) "") as [E|E];
      [contradiction|].
    cbn. repeat split.
Qed.

(** *** The catalog stream *)

(** C3: a show that [Shows] emits is not detailed and has no stream URL. *)
Theorem Shows_emits_summaries (mm : list MatchRequest) (w : World)
        (s : providers.Show) :
  In s (fst (Shows mm w)) ->
  providers.Detailed s = false /\ providers.StreamURL s = "".
Proof.
  rewrite Shows_rangeEmissions, rangeEmissions_filter.
  intros H. apply filter_In in H. destruct H as [H _].
  apply in_map_iff in H. destruct H as [e [<- _]].
  split; reflexivity.
Qed.

(** C4, as amended: an emitted show is the show of an entry of the
    catalog, and its ID is the identifier of that entry, taken as it is;
    so when every entry of the catalog has an identifier, the emitted show
    has an ID. *)
Theorem Shows_emits_entry_ID (mm : list MatchRequest) (w : World)
        (s : providers.Show) :
  In s (fst (Shows mm w)) ->
  (exists e, In e (entriesOf w) /\ s = showOf e
             /\ providers.ID s = IDDiffusion e)
  /\ ((forall e, In e (entriesOf w) -> IDDiffusion e <> "") ->
      providers.ID s <> "").
Proof.
  rewrite Shows_rangeEmissions, rangeEmissions_filter.
  intros H. apply filter_In in H. destruct H as [H _].
  apply in_map_iff in H. destruct H as [e [<- He]].
  split.
  - exists e. repeat split. exact He.
  - intros N. exact (N e He).
Qed.

(** C9: the shows that [Shows] emits are the shows of the entries that the
    match filter accepts, in the order of the entries. *)
Theorem Shows_filters_in_order (mm : list MatchRequest) (w : World) :
  fst (Shows mm w)
  = filter (providers.IsShowMatch mm) (map showOf (entriesOf w)).
Proof.
  rewrite Shows_rangeEmissions. apply rangeEmissions_filter.
Qed.

(** *** The path builder *)

(** C7: the matcher path is the save path. *)
Theorem GetShowFileNameMatcher_is_GetShowFileName (s : providers.Show) :
  GetShowFileNameMatcher s = GetShowFileName s.
Proof.
  reflexivity.
Qed.

(** C8: the three examples of the specification, the cleaners keeping the
    names of the examples and [Format2Digits] padding "2" and "5" with a
    zero.  What an example leaves open (the ID of the second, the ID and
    the air date of the third, the fields that the path does not read) is
    arbitrary. *)
Theorem GetShowFileName_examples (s1 s2 s3 : providers.Show) :
  (forall x, In x ["Le Journal"; "Drama"; "Pilot"] ->
             providers.PathNameCleaner x = x /\ providers.FileNameCleaner x = x) ->
  providers.Format2Digits "2" = "02" ->
  providers.Format2Digits "5" = "05" ->
  providers.Show_ s1 = "Le Journal" /\ providers.Season s1 = ""
  /\ providers.Episode s1 = "" /\ providers.Title s1 = ""
  /\ providers.AirDate s1 = time.mkTime 2023 5 1
  /\ providers.ID s1 = "abc123" ->
  providers.Show_ s2 = "Drama" /\ providers.Season s2 = "2"
  /\ providers.Episode s2 = "5" /\ providers.Title s2 = "Pilot"
  /\ providers.AirDate s2 = time.mkTime 2023 5 1 ->
  providers.Show_ s3 = "Drama" /\ providers.Season s3 = "2"
  /\ providers.Episode s3 = "5" /\ providers.Title s3 = "Drama" ->
  GetShowFileName s1
  = "Le Journal/Season 2023/Le Journal - 2023-05-01 - abc123.mp4"
  /\ GetShowFileName s2 = "Drama/Season 02/Drama - s02e05 - Pilot.mp4"
  /\ GetShowFileName s3 = "Drama/Season 02/Drama - s02e05.mp4".
Proof.
  intros C F2 F5 (N1 & S1 & E1 & T1 & A1 & I1) (N2 & S2 & E2 & T2 & A2)
         (N3 & S3 & E3 & T3).
  destruct (C "Le Journal") as [PJ FJ]; [cbn; tauto|].
  destruct (C "Drama") as [PD FD]; [cbn; tauto|].
  destruct (C "Pilot") as [_ FP]; [cbn; tauto|].
  unfold GetShowFileName.
  rewrite N1, S1, E1, T1, A1, I1, N2, S2, E2, T2, N3, S3, E3, T3.
  cbn [String.eqb Ascii.eqb Bool.eqb andb orb negb].
  rewrite PJ, FJ, PD, FD, FP, F2, F5.
  repeat split; vm_compute; reflexivity.
Qed.

End ProviderFacts.

(** ** The provider on the canned getter *)
Section Runs.

#[local] Existing Instance canned.client_getter.
#[local] Existing Instance canned.stream_Decoder.
#[local] Existing Instance canned.byName.

(** C5 at a detailed show: the getter is not called, its count of calls
    stays at zero. *)
Lemma GetShowInfo_detailed_is_noop_witness :
  providers.Detailed canned.detailed = true
  /\ GetShowInfo canned.detailed (canned.world (canned.detail canned.twoStreams))
     = ((None, canned.detailed),
        canned.world (canned.detail canned.twoStreams)).
Proof.
  split; [reflexivity|].
  apply (GetShowInfo_detailed_is_noop canned.detailed). reflexivity.
Defined.

(** C1 as stated fails: a document with no rendition of the target format
    makes the call fail after it has put the secure thumbnail in the show;
    on a show that has a stream URL already the same document makes the
    call return [nil]; and a document whose first rendition of the target
    format has no URL makes the call fail after it has emptied the stream
    URL that the show had. *)
Lemma GetShowInfo_failure_changes_thumbnail :
  (failureOf canned.summary (canned.world (canned.detail canned.otherFormat))
   = Some noRendition
   /\ errorOf (GetShowInfo canned.summary
                           (canned.world (canned.detail canned.otherFormat)))
      = Some "Can't find hls_v5_os stream for the show"
   /\ providers.ThumbnailURL
        (showAfter (GetShowInfo canned.summary
                                (canned.world (canned.detail canned.otherFormat))))
      <> providers.ThumbnailURL canned.summary)
  /\ (failureOf canned.preset (canned.world (canned.detail canned.otherFormat))
      = Some noRendition
      /\ errorOf (GetShowInfo canned.preset
                              (canned.world (canned.detail canned.otherFormat)))
         = None)
  /\ (errorOf (GetShowInfo canned.preset
                           (canned.world (canned.detail canned.emptyFirst)))
      = Some "Can't find hls_v5_os stream for the show"
      /\ providers.StreamURL
           (showAfter (GetShowInfo canned.preset
                                   (canned.world (canned.detail canned.emptyFirst))))
         <> providers.StreamURL canned.preset).
Proof.
  repeat split; try (vm_compute; reflexivity); vm_compute; discriminate.
Qed.

(** The amended C1 on a document with no rendition of the target format,
    for a show without a stream URL, and on a document whose first
    rendition of the target format has no URL, for a show with one. *)
Lemma GetShowInfo_failure_keeps_witness :
  (failureOf canned.summary (canned.world (canned.detail canned.otherFormat))
   = Some noRendition
   /\ (noRendition = noRendition -> providers.StreamURL canned.summary = "")
   /\ errorOf (GetShowInfo canned.summary
                           (canned.world (canned.detail canned.otherFormat)))
      <> None
   /\ providers.Detailed
        (showAfter (GetShowInfo canned.summary
                                (canned.world (canned.detail canned.otherFormat))))
      = providers.Detailed canned.summary
   /\ providers.StreamURL
        (showAfter (GetShowInfo canned.summary
                                (canned.world (canned.detail canned.otherFormat))))
      = providers.StreamURL canned.summary)
  /\ (failureOf canned.preset (canned.world (canned.detail canned.emptyFirst))
      = Some emptyURL
      /\ errorOf (GetShowInfo canned.preset
                              (canned.world (canned.detail canned.emptyFirst)))
         <> None
      /\ providers.Detailed
           (showAfter (GetShowInfo canned.preset
                                   (canned.world (canned.detail canned.emptyFirst))))
         = providers.Detailed canned.preset
      /\ providers.StreamURL
           (showAfter (GetShowInfo canned.preset
                                   (canned.world (canned.detail canned.emptyFirst))))
         = "").
Proof.
  assert (F1 : failureOf canned.summary
                 (canned.world (canned.detail canned.otherFormat))
               = Some noRendition) by reflexivity.
  assert (U1 : noRendition = noRendition ->
               providers.StreamURL canned.summary = "") by reflexivity.
  assert (F2 : failureOf canned.preset
                 (canned.world (canned.detail canned.emptyFirst))
               = Some emptyURL) by reflexivity.
  assert (U2 : emptyURL = noRendition ->
               providers.StreamURL canned.preset = "") by discriminate.
  destruct (GetShowInfo_failure_keeps canned.summary
              (canned.world (canned.detail canned.otherFormat))) as [E1 K1].
  destruct (GetShowInfo_failure_keeps canned.preset
              (canned.world (canned.detail canned.emptyFirst))) as [E2 K2].
  destruct (K1 noRendition F1 U1) as (D1 & S1 & _ & _).
  destruct (K2 emptyURL F2 U2) as (D2 & _ & S2 & _).
  split.
  - split; [exact F1|]. split; [exact U1|].
    split; [apply E1; exists noRendition; split; [exact F1 | exact U1]|].
    split; [exact D1|]. apply S1. discriminate.
  - split; [exact F2|].
    split; [apply E2; exists emptyURL; split; [exact F2 | exact U2]|].
    split; [exact D2|]. apply S2. reflexivity.
Defined.

(** C6 as stated fails: the document has a rendition of the target format
    with a URL, the second one, and the call stops at the first one, which
    has none, and returns an error. *)
Lemma GetShowInfo_first_rendition_without_URL :
  providers.Detailed canned.summary = false
  /\ payloadOf canned.summary (canned.world (canned.detail canned.emptyFirst))
     = Some canned.emptyFirst
  /\ (exists v, In v (Videos canned.emptyFirst)
                /\ Format v = hls_v5_os /\ URL v <> "")
  /\ errorOf (GetShowInfo canned.summary
                          (canned.world (canned.detail canned.emptyFirst)))
     = Some "Can't find hls_v5_os stream for the show".
Proof.
  repeat split; try (vm_compute; reflexivity).
  exists (canned.hls "http://v/master.m3u8").
  repeat split; [right; left; reflexivity | discriminate].
Qed.

Lemma GetShowInfo_first_rendition_witness :
  providers.Detailed canned.summary = false
  /\ payloadOf canned.summary (canned.world (canned.detail canned.twoStreams))
     = Some canned.twoStreams
  /\ find (hasFormat hls_v5_os) (Videos canned.twoStreams)
     = Some (canned.hls "http://v/master.m3u8")
  /\ URL (canned.hls "http://v/master.m3u8") <> ""
  /\ errorOf (GetShowInfo canned.summary
                          (canned.world (canned.detail canned.twoStreams)))
     = None
  /\ providers.StreamURL
       (showAfter (GetShowInfo canned.summary
                               (canned.world (canned.detail canned.twoStreams))))
     = URL (canned.hls "http://v/master.m3u8")
  /\ providers.ThumbnailURL
       (showAfter (GetShowInfo canned.summary
                               (canned.world (canned.detail canned.twoStreams))))
     = ImageSecure canned.twoStreams
  /\ providers.Detailed
       (showAfter (GetShowInfo canned.summary
                               (canned.world (canned.detail canned.twoStreams))))
     = true.
Proof.
  split; [reflexivity|]. split; [reflexivity|]. split; [reflexivity|].
  split; [discriminate|].
  apply (GetShowInfo_first_rendition canned.summary
           (canned.world (canned.detail canned.twoStreams)) canned.twoStreams
           (canned.hls "http://v/master.m3u8"));
    [reflexivity | reflexivity | reflexivity | discriminate].
Defined.

(** C10 as stated fails: the show has a stream URL, the document is
    fetched and decoded, and the call returns an error and leaves the show
    not detailed, the first rendition of the target format having no
    URL. *)
Lemma GetShowInfo_preset_stream_emptied :
  providers.Detailed canned.preset = false
  /\ providers.StreamURL canned.preset <> ""
  /\ payloadOf canned.preset (canned.world (canned.detail canned.emptyFirst))
     = Some canned.emptyFirst
  /\ errorOf (GetShowInfo canned.preset
                          (canned.world (canned.detail canned.emptyFirst)))
     = Some "Can't find hls_v5_os stream for the show"
  /\ providers.Detailed
       (showAfter (GetShowInfo canned.preset
                               (canned.world (canned.detail canned.emptyFirst))))
     = false.
Proof.
  repeat split; try (vm_compute; reflexivity). vm_compute. discriminate.
Qed.

Lemma GetShowInfo_preset_stream_witness :
  providers.Detailed canned.preset = false
  /\ providers.StreamURL canned.preset <> ""
  /\ payloadOf canned.preset (canned.world (canned.detail canned.otherFormat))
     = Some canned.otherFormat
  /\ (forall v, find (hasFormat hls_v5_os) (Videos canned.otherFormat) = Some v ->
                URL v <> "")
  /\ errorOf (GetShowInfo canned.preset
                          (canned.world (canned.detail canned.otherFormat)))
     = None
  /\ providers.Detailed
       (showAfter (GetShowInfo canned.preset
                               (canned.world (canned.detail canned.otherFormat))))
     = true
  /\ providers.ThumbnailURL
       (showAfter (GetShowInfo canned.preset
                               (canned.world (canned.detail canned.otherFormat))))
     = ImageSecure canned.otherFormat
  /\ ((forall v, In v (Videos canned.otherFormat) -> Format v <> hls_v5_os) ->
      showAfter (GetShowInfo canned.preset
                             (canned.world (canned.detail canned.otherFormat)))
      = providers.set_Detailed true
          (providers.set_ThumbnailURL (ImageSecure canned.otherFormat)
                                      canned.preset)).
Proof.
  assert (N : forall v, find (hasFormat hls_v5_os) (Videos canned.otherFormat)
                        = Some v -> URL v <> "").
  { intros v H. discriminate H. }
  split; [reflexivity|]. split; [discriminate|]. split; [reflexivity|].
  split; [exact N|].
  apply (GetShowInfo_preset_stream canned.preset
           (canned.world (canned.detail canned.otherFormat)) canned.otherFormat);
    [reflexivity | discriminate | reflexivity | exact N].
Defined.

(** C2 breaks on a decode failure.  [Shows] logs the error of [Decode] and
    goes on to the loop, where the transport failure before it returns: on
    a catalog in which [Decode] filled an entry before it met the error,
    the entry is emitted. *)
Theorem Shows_decode_failure_still_emits :
  Shows canned.TrimSpace ["Le Journal"] (canned.world canned.brokenCatalog)
  = ([canned.summary],
     mkWorld (canned.mkClient canned.brokenCatalog 1) [canned.catalogURL]
             [mkLog "[%s] Can't decode catalog: %q" [canned.unmarshalTypeError]]).
Proof.
  vm_compute. reflexivity.
Qed.

Lemma Shows_emits_summaries_witness :
  In canned.summary
     (fst (Shows canned.TrimSpace ["Le Journal"] (canned.world canned.catalog3)))
  /\ providers.Detailed canned.summary = false
  /\ providers.StreamURL canned.summary = "".
Proof.
  assert (H : In canned.summary
                 (fst (Shows canned.TrimSpace ["Le Journal"]
                             (canned.world canned.catalog3)))).
  { left. reflexivity. }
  split; [exact H|].
  exact (Shows_emits_summaries canned.TrimSpace ["Le Journal"]
           (canned.world canned.catalog3) canned.summary H).
Defined.

(** C4 as stated fails: the third entry of the catalog has no identifier,
    the filter accepts its show, and the show is emitted with an empty
    ID. *)
Lemma Shows_emits_empty_ID :
  map providers.ID
      (fst (Shows canned.TrimSpace ["Drama"] (canned.world canned.catalog3)))
  = ["d25"; ""]
  /\ exists s,
      In s (fst (Shows canned.TrimSpace ["Drama"] (canned.world canned.catalog3)))
      /\ providers.ID s = "".
Proof.
  split; [vm_compute; reflexivity|].
  exists (showOf canned.TrimSpace canned.anonymous).
  split; [right; left; reflexivity | reflexivity].
Qed.

Lemma Shows_emits_entry_ID_witness :
  In canned.pilot
     (fst (Shows canned.TrimSpace ["Drama"] (canned.world canned.catalog2)))
  /\ (exists e, In e (entriesOf (canned.world canned.catalog2))
                /\ canned.pilot = showOf canned.TrimSpace e
                /\ providers.ID canned.pilot = IDDiffusion e)
  /\ ((forall e, In e (entriesOf (canned.world canned.catalog2)) ->
                 IDDiffusion e <> "") ->
      providers.ID canned.pilot <> "").
Proof.
  assert (H : In canned.pilot
                 (fst (Shows canned.TrimSpace ["Drama"]
                             (canned.world canned.catalog2)))).
  { left. reflexivity. }
  split; [exact H|].
  exact (Shows_emits_entry_ID canned.TrimSpace ["Drama"]
           (canned.world canned.catalog2) canned.pilot H).
Defined.

(** On the catalog of three entries the first is filtered out, and the
    other two come in their order. *)
Example Shows_drama_in_order :
  map providers.ID
      (fst (Shows canned.TrimSpace ["Drama"] (canned.world canned.catalog3)))
  = map IDDiffusion [canned.drama; canned.anonymous].
Proof.
  vm_compute. reflexivity.
Qed.

Lemma GetShowFileName_examples_witness :
  GetShowFileName canned.summary
  = "Le Journal/Season 2023/Le Journal - 2023-05-01 - abc123.mp4"
  /\ GetShowFileName canned.pilot = "Drama/Season 02/Drama - s02e05 - Pilot.mp4"
  /\ GetShowFileName canned.untitled = "Drama/Season 02/Drama - s02e05.mp4".
Proof.
  apply (GetShowFileName_examples canned.summary canned.pilot canned.untitled).
  - intros x _. split; reflexivity.
  - reflexivity.
  - reflexivity.
  - repeat split.
  - repeat split.
  - repeat split.
Defined.

End Runs.

(** ** More of the provider *)
Section MoreFacts.

Context {G ReadCloser MatchRequest : Type}.
Context {getter_G : getter G ReadCloser}.
Context {json : Decoder ReadCloser}.
Context {pkg : providers.Package MatchRequest}.
Variable TrimSpace : string -> string.

#[local] Abbreviation World := (World G).
#[local] Abbreviation showOf := (showOf TrimSpace).
#[local] Abbreviation Shows := (Shows TrimSpace).

Ltac run :=
  unfold GetShowStreamURL, GetShowInfo, francetv.Shows, entriesOf, errorOf,
    showAfter, urlOf, urlErrorOf, bind, ret, ftv_Get, log_Printf in *;
  cbn [fst snd] in *.

(** *** [Shows] *)

(** X1: a call of [Shows] asks the getter once, whatever comes of it, for
    the list of the last 3000 shows. *)
Theorem Shows_one_request (mm : list MatchRequest) (w : World) :
  requests (snd (Shows mm w))
  = (requests w
     ++ ["http://pluzz.webservices.francetelevisions.fr/pluzz/liste/type/replay/nb/3000/debut/0"])%list.
Proof.
  run. destruct (Get (ftv_getter w) _) as [[r|e] g]; cbn; [|reflexivity].
  destruct (Decode_pluzzList r) as [l [e|]]; reflexivity.
Qed.

(** X3: an emitted show is the show of an entry of the catalog that the
    filter accepts; its provider is the name of the provider, and it is
    not marked as under DRM. *)
Theorem Shows_emits_matches (mm : list MatchRequest) (w : World)
        (s : providers.Show) :
  In s (fst (Shows mm w)) ->
  (exists e, In e (entriesOf w) /\ s = showOf e)
  /\ providers.IsShowMatch mm s = true
  /\ providers.Provider s = "francetv"
  /\ providers.DRM s = false.
Proof.
  rewrite Shows_rangeEmissions, rangeEmissions_filter.
  intros H. apply filter_In in H. destruct H as [H Hm].
  apply in_map_iff in H. destruct H as [e [<- He]].
  split; [exists e; split; [exact He | reflexivity]|].
  split; [exact Hm|]. split; reflexivity.
Qed.

(** X4: the stream closes with no show emitted exactly when the filter
    accepts the show of no entry; an empty catalog is such a case. *)
Theorem Shows_empty_iff (mm : list MatchRequest) (w : World) :
  fst (Shows mm w) = []
  <-> forall e, In e (entriesOf w) ->
                providers.IsShowMatch mm (showOf e) = false.
Proof.
  rewrite Shows_rangeEmissions.
  induction (entriesOf w) as [|e es IH]; cbn.
  - split; [intros _ e [] | reflexivity].
  - destruct (providers.IsShowMatch mm (showOf e)) eqn:E.
    + split; [discriminate|].
      intros H. specialize (H e (or_introl eq_refl)). congruence.
    + rewrite IH. split.
      * intros H e' [<-|He']; [exact E | exact (H e' He')].
      * intros H e' He'. apply H. right. exact He'.
Qed.

(** *** [GetShowInfo] *)

(** The show after a call differs from the show before it in the three
    fields that [GetShowInfo] assigns, at most. *)
Lemma rangeVideos_frame (vs : list video) (s : providers.Show) :
  rangeVideos vs s
  = providers.set_StreamURL (providers.StreamURL (rangeVideos vs s)) s.
Proof.
  induction vs as [|v vs IH]; cbn.
  - destruct s; reflexivity.
  - destruct (Format v =? hls_v5_os); [destruct s; reflexivity | exact IH].
Qed.

Lemma GetShowInfo_frame (s : providers.Show) (w : World) :
  let s' := showAfter (GetShowInfo s w) in
  s' = providers.set_Detailed (providers.Detailed s')
         (providers.set_StreamURL (providers.StreamURL s')
            (providers.set_ThumbnailURL (providers.ThumbnailURL s') s)).
Proof.
  run. destruct (providers.Detailed s) eqn:D.
  - cbn. destruct s; cbn in *; subst; reflexivity.
  - destruct (Get (ftv_getter w) _) as [[r|e] g]; cbn [fst snd].
    + destruct (Decode_infoOeuvre r) as [i [e|]].
      * cbn. destruct s; cbn in *; subst; reflexivity.
      * pose proof (rangeVideos_frame (Videos i)
                      (providers.set_ThumbnailURL (ImageSecure i) s)) as F.
        remember (rangeVideos (Videos i) _) as s1 eqn:E1. clear E1.
        remember (providers.StreamURL s1) as u eqn:Eu. clear Eu. subst s1.
        destruct (u =? ""); cbn; destruct s; reflexivity.
    + cbn. destruct s; cbn in *; subst; reflexivity.
Qed.

(** X5: whatever comes of a call, [GetShowInfo] leaves the fields of the
    show that describe it as they were: it assigns [ThumbnailURL],
    [StreamURL] and [Detailed] only. *)
Theorem GetShowInfo_keeps_description (s : providers.Show) (w : World) :
  let s' := showAfter (GetShowInfo s w) in
  providers.ID s' = providers.ID s
  /\ providers.Show_ s' = providers.Show_ s
  /\ providers.Title s' = providers.Title s
  /\ providers.Season s' = providers.Season s
  /\ providers.Episode s' = providers.Episode s
  /\ providers.Pitch s' = providers.Pitch s
  /\ providers.AirDate s' = providers.AirDate s
  /\ providers.Channel s' = providers.Channel s
  /\ providers.DRM s' = providers.DRM s
  /\ providers.Duration s' = providers.Duration s
  /\ providers.Category s' = providers.Category s
  /\ providers.Provider s' = providers.Provider s
  /\ providers.ShowURL s' = providers.ShowURL s.
Proof.
  intros s'. pose proof (GetShowInfo_frame s w) as F. cbv zeta in F.
  fold s' in F. rewrite F. cbn. repeat split.
Qed.

(** X6: [GetShowInfo] returns [nil] exactly when it leaves the show
    detailed. *)
Theorem GetShowInfo_nil_iff_detailed (s : providers.Show) (w : World) :
  errorOf (GetShowInfo s w) = None
  <-> providers.Detailed (showAfter (GetShowInfo s w)) = true.
Proof.
  run. destruct (providers.Detailed s) eqn:D.
  - cbn. rewrite D. tauto.
  - destruct (Get (ftv_getter w) _) as [[r|e] g]; cbn [fst snd].
    + destruct (Decode_infoOeuvre r) as [i [e|]].
      * cbn. rewrite D. split; discriminate.
      * destruct (providers.StreamURL _ =? ""); cbn.
        -- rewrite rangeVideos_Detailed. cbn. rewrite D. split; discriminate.
        -- tauto.
    + cbn. rewrite D. split; discriminate.
Qed.

(** X7: [GetShowInfo] keeps the invariant that a detailed show has a
    stream URL. *)
Theorem GetShowInfo_keeps_invariant (s : providers.Show) (w : World) :
  (providers.Detailed s = true -> providers.StreamURL s <> "") ->
  providers.Detailed (showAfter (GetShowInfo s w)) = true ->
  providers.StreamURL (showAfter (GetShowInfo s w)) <> "".
Proof.
  intros I. run. destruct (providers.Detailed s) eqn:D.
  - cbn. intros _. exact (I eq_refl).
  - destruct (Get (ftv_getter w) _) as [[r|e] g]; cbn [fst snd].
    + destruct (Decode_infoOeuvre r) as [i [e|]].
      * cbn. congruence.
      * destruct (String.eqb_spec
                    (providers.StreamURL
                       (rangeVideos (Videos i)
                          (providers.set_ThumbnailURL (ImageSecure i) s))) "")
          as [E|E]; cbn.
        -- rewrite rangeVideos_Detailed. cbn. congruence.
        -- intros _. exact E.
    + cbn. congruence.
Qed.

(** X8: [GetShowInfo] asks the getter once for the details of the show,
    at the address of the web service followed by the ID of the show, and
    not at all when the show is detailed; it logs nothing. *)
Theorem GetShowInfo_requests (s : providers.Show) (w : World) :
  requests (snd (GetShowInfo s w))
  = List.app (requests w)
      (if providers.Detailed s then []
       else ["http://webservices.francetelevisions.fr/tools/getInfosOeuvre/v2/?catalogue=Pluzz&idDiffusion="
             ++ providers.ID s])
  /\ logged (snd (GetShowInfo s w)) = logged w.
Proof.
  run. destruct (providers.Detailed s) eqn:D.
  - cbn. rewrite app_nil_r. split; reflexivity.
  - destruct (Get (ftv_getter w) _) as [[r|e] g]; cbn [fst snd].
    + destruct (Decode_infoOeuvre r) as [i [e|]]; [split; reflexivity|].
      destruct (providers.StreamURL _ =? ""); split; reflexivity.
    + split; reflexivity.
Qed.

(** X9: after a call that returned [nil], a second call on the show as the
    first left it returns [nil] too, and changes neither the show nor the
    world: the getter is not asked again. *)
Theorem GetShowInfo_again (s : providers.Show) (w : World) :
  errorOf (GetShowInfo s w) = None ->
  GetShowInfo (showAfter (GetShowInfo s w)) (snd (GetShowInfo s w))
  = ((None, showAfter (GetShowInfo s w)), snd (GetShowInfo s w)).
Proof.
  assert (D' : providers.Detailed (showAfter (GetShowInfo s w)) = true
               -> GetShowInfo (showAfter (GetShowInfo s w)) (snd (GetShowInfo s w))
                  = ((None, showAfter (GetShowInfo s w)), snd (GetShowInfo s w))).
  { intros D'. unfold GetShowInfo at 1. rewrite D'. reflexivity. }
  intros E. apply D'. clear D'. run.
  destruct (providers.Detailed s) eqn:D; [exact D|].
  destruct (Get (ftv_getter w) _) as [[r|e] g]; cbn [fst snd] in *;
    [|discriminate].
  destruct (Decode_infoOeuvre r) as [i [e|]]; [discriminate|].
  destruct (providers.StreamURL _ =? ""); [discriminate | reflexivity].
Qed.

(** *** [GetShowStreamURL] *)

(** X10: when the show has a stream URL, [GetShowStreamURL] returns it
    with no error, detailed or not: the show and the world are as they
    were, the getter is not asked. *)
Theorem GetShowStreamURL_known (s : providers.Show) (w : World) :
  providers.StreamURL s <> "" ->
  GetShowStreamURL s w = (((providers.StreamURL s, None), s), w).
Proof.
  intros U. unfold GetShowStreamURL.
  destruct (String.eqb_spec (providers.StreamURL s) "") as [E|E];
    [contradiction | reflexivity].
Qed.

(** X11: on a show that is marked detailed and has no stream URL,
    [GetShowStreamURL] returns the empty URL and no error, and asks
    nothing. *)
Theorem GetShowStreamURL_detailed_without_URL (s : providers.Show) (w : World) :
  providers.StreamURL s = "" ->
  providers.Detailed s = true ->
  GetShowStreamURL s w = ((("", None), s), w).
Proof.
  intros U D. run. rewrite U, D. cbn. rewrite U. reflexivity.
Qed.

(** X12: [GetShowStreamURL] returns an error only for a show without a
    stream URL on which [GetShowInfo] fails: the error is the one of
    [GetShowInfo] behind a prefix, and the URL returned with it is empty. *)
Theorem GetShowStreamURL_error (s : providers.Show) (w : World) (e : error) :
  urlErrorOf (GetShowStreamURL s w) = Some e ->
  urlOf (GetShowStreamURL s w) = ""
  /\ providers.StreamURL s = ""
  /\ exists e0, errorOf (GetShowInfo s w) = Some e0
                /\ e = "Can't get detailed information for the show: " ++ e0.
Proof.
  unfold GetShowStreamURL, urlErrorOf, urlOf, errorOf, bind, ret.
  destruct (String.eqb_spec (providers.StreamURL s) "") as [U|U];
    [|cbn; discriminate].
  destruct (GetShowInfo s w) as [[[e0|] s'] w']; cbn; [|discriminate].
  intros [= <-]. split; [reflexivity|]. split; [exact U|].
  exists e0. split; reflexivity.
Qed.

(** X13: on a show that keeps the invariant (detailed shows have a stream
    URL), a call of [GetShowStreamURL] that returns no error returns a URL
    that is not empty, the stream URL of the show as the call leaves it. *)
Theorem GetShowStreamURL_nil_gives_URL (s : providers.Show) (w : World) :
  (providers.Detailed s = true -> providers.StreamURL s <> "") ->
  urlErrorOf (GetShowStreamURL s w) = None ->
  urlOf (GetShowStreamURL s w) <> ""
  /\ urlOf (GetShowStreamURL s w)
     = providers.StreamURL (showAfter (GetShowStreamURL s w)).
Proof.
  intros I. run.
  destruct (String.eqb_spec (providers.StreamURL s) "") as [U|U];
    [|cbn; intros _; split; [exact U | reflexivity]].
  destruct (providers.Detailed s) eqn:D; [exfalso; exact (I eq_refl U)|].
  destruct (Get (ftv_getter w) _) as [[r|e] g]; cbn [fst snd];
    [|cbn; discriminate].
  destruct (Decode_infoOeuvre r) as [i [e|]]; [cbn; discriminate|].
  destruct (String.eqb_spec
              (providers.StreamURL
                 (rangeVideos (Videos i)
                    (providers.set_ThumbnailURL (ImageSecure i) s))) "")
    as [E|E]; cbn; [discriminate|].
  intros _. split; [exact E | reflexivity].
Qed.

(** X18: on a show without a stream URL, [GetShowStreamURL] leaves the
    show and the world as [GetShowInfo] leaves them, and returns no error
    exactly when [GetShowInfo] returns none. *)
Theorem GetShowStreamURL_resolves (s : providers.Show) (w : World) :
  providers.StreamURL s = "" ->
  showAfter (GetShowStreamURL s w) = showAfter (GetShowInfo s w)
  /\ snd (GetShowStreamURL s w) = snd (GetShowInfo s w)
  /\ (urlErrorOf (GetShowStreamURL s w) = None
      <-> errorOf (GetShowInfo s w) = None).
Proof.
  intros U. unfold GetShowStreamURL, urlErrorOf, showAfter, errorOf, bind, ret.
  rewrite U. cbn [String.eqb].
  destruct (GetShowInfo s w) as [[[e|] s'] w']; cbn;
    repeat split; try reflexivity; discriminate.
Qed.

(** *** [GetShowFileName] after [GetShowInfo] *)

(** X14: the file name of a show is the same before and after a call of
    [GetShowInfo], whatever comes of the call. *)
Theorem GetShowFileName_after_GetShowInfo (s : providers.Show) (w : World) :
  GetShowFileName (showAfter (GetShowInfo s w)) = GetShowFileName s.
Proof.
  pose proof (GetShowInfo_frame s w) as F. cbv zeta in F.
  set (s' := showAfter (GetShowInfo s w)) in *.
  rewrite F. reflexivity.
Qed.

End MoreFacts.

(** *** [New] *)
Section NewFacts.

Context {G : Type}.
Variable DefaultClient : G.

Lemma last_cons_default (gs : list G) (g d d' : G) :
  last (g :: gs) d = last (g :: gs) d'.
Proof.
  revert g. induction gs as [|g' gs IH]; intros g; [reflexivity|].
  exact (IH g').
Qed.

Lemma fold_options_WithGetter (gs : list G) (ftv : FranceTV G) :
  fold_left (fun ftv fn => fn ftv) (map WithGetter gs) ftv
  = mkFranceTV (last gs (getter_ ftv)).
Proof.
  revert ftv. induction gs as [|g gs IH]; intros ftv; cbn.
  - destruct ftv; reflexivity.
  - rewrite IH. cbn [WithGetter getter_].
    destruct gs as [|g' gs]; [reflexivity|].
    f_equal. apply last_cons_default.
Qed.

(** X15: [New] returns no error; with [WithGetter] options only, the
    provider holds the getter of the last one, and the default client when
    there is none; and a [WithGetter] that comes last decides the getter
    whatever the options before it. *)
Theorem New_getter (gs : list G) (conf : list (FranceTV G -> FranceTV G))
        (g : G) :
  New DefaultClient (map WithGetter gs)
  = (mkFranceTV (last gs DefaultClient), None)
  /\ New DefaultClient (conf ++ [WithGetter g]) = (mkFranceTV g, None)
  /\ snd (New DefaultClient conf) = None.
Proof.
  unfold New. split; [|split; [|reflexivity]].
  - rewrite fold_options_WithGetter. reflexivity.
  - rewrite fold_left_app. reflexivity.
Qed.

End NewFacts.

(** *** The shape of a file name *)
Section PathFacts.

Context {MatchRequest : Type} {pkg : providers.Package MatchRequest}.

Lemma append_assoc (a b c : string) : (a ++ b) ++ c = a ++ b ++ c.
Proof.
  induction a as [|x a IH]; cbn; [reflexivity | rewrite IH; reflexivity].
Qed.

Lemma length_append (a b : string) :
  String.length (a ++ b) = String.length a + String.length b.
Proof.
  induction a as [|x a IH]; cbn; [reflexivity | rewrite IH; reflexivity].
Qed.

(** A string of three characters or more is none of the elements that
    [Clean] drops. *)
Lemma long_not_special (e : string) :
  3 <= String.length e ->
  (e =? "") = false /\ (e =? ".") = false /\ (e =? "..") = false.
Proof.
  intros L. repeat split; apply String.eqb_neq; intros ->; cbn in L; lia.
Qed.

Lemma plain_spec (e : string) :
  plain e = true ->
  noSlash e = true
  /\ (e =? "") = false /\ (e =? ".") = false /\ (e =? "..") = false.
Proof.
  unfold plain. intros H.
  repeat (apply andb_true_iff in H; destruct H as [H ?]).
  repeat split; try assumption; apply negb_true_iff; assumption.
Qed.

Lemma split_noSlash (t : string) :
  noSlash t = true -> filepath.split t = [t].
Proof.
  induction t as [|c t IH]; cbn; [reflexivity|].
  intros H. apply andb_true_iff in H. destruct H as [C T].
  apply negb_true_iff in C. rewrite C, (IH T). reflexivity.
Qed.

Lemma split_append_slash (a b : string) :
  noSlash a = true ->
  filepath.split (a ++ String "/" b) = a :: filepath.split b.
Proof.
  induction a as [|c a IH]; cbn; [reflexivity|].
  intros H. apply andb_true_iff in H. destruct H as [C A].
  apply negb_true_iff in C. rewrite C, (IH A). reflexivity.
Qed.

(** The last element of a path that ends with a string without separator
    ends with that string. *)
Lemma split_append_last (q t : string) :
  noSlash t = true ->
  exists init l, filepath.split (q ++ t) = List.app init [l ++ t].
Proof.
  intros T. induction q as [|c q (init & l & IH)]; cbn.
  - exists [], "". cbn. apply split_noSlash. exact T.
  - rewrite IH. destruct (Ascii.eqb c "/").
    + exists ("" :: init), l. reflexivity.
    + destruct init as [|h init]; cbn.
      * exists [], (String c l). reflexivity.
      * exists (String c h :: init), l. reflexivity.
Qed.

(** [Clean] keeps the last element of a path when it is none of the
    elements it drops. *)
Lemma cleanElems_last (rooted : bool) (elems out : list string) (e : string) :
  (e =? "") = false -> (e =? ".") = false -> (e =? "..") = false ->
  exists out', filepath.cleanElems rooted out (elems ++ [e])%list
               = rev (e :: out').
Proof.
  intros E0 E1 E2. revert out.
  induction elems as [|x elems IH]; intros out; cbn.
  - rewrite E0, E1, E2. cbn. exists out. reflexivity.
  - destruct ((x =? "") || (x =? ".")); [apply IH|].
    destruct (x =? ".."); [|apply IH].
    destruct out as [|top out]; [destruct rooted; apply IH|].
    destruct (top =? ".."); apply IH.
Qed.

Lemma concat_last (sep : string) (l : list string) (e : string) :
  exists before, String.concat sep (l ++ [e])%list = before ++ e.
Proof.
  induction l as [|x l (before & IH)].
  - exists "". reflexivity.
  - destruct l as [|y l].
    + exists (x ++ sep). cbn. rewrite append_assoc. reflexivity.
    + exists (x ++ sep ++ before).
      change (x ++ sep ++ String.concat sep ((y :: l) ++ [e])%list
              = (x ++ sep ++ before) ++ e).
      rewrite IH, !append_assoc. reflexivity.
Qed.

Lemma Clean_keeps_suffix (q t : string) :
  noSlash t = true -> 3 <= String.length t ->
  endsWith t (filepath.Clean (q ++ t)).
Proof.
  intros T L. unfold filepath.Clean, strings.Join.
  destruct (split_append_last q t T) as (init & l & S). rewrite S.
  assert (L' : 3 <= String.length (l ++ t)) by (rewrite length_append; lia).
  destruct (long_not_special _ L') as (E0 & E1 & E2).
  destruct (cleanElems_last (prefix "/" (q ++ t)) init [] _ E0 E1 E2)
    as (out' & C).
  rewrite C. cbn [rev].
  destruct (concat_last "/" (rev out') (l ++ t)) as (before & J). rewrite J.
  set (root := if prefix "/" (q ++ t) then "/" else "").
  assert (O : root ++ before ++ l ++ t = (root ++ before ++ l) ++ t)
    by (rewrite !append_assoc; reflexivity).
  rewrite O.
  assert (N : 3 <= String.length ((root ++ before ++ l) ++ t))
    by (rewrite length_append; lia).
  destruct (long_not_special _ N) as (-> & _ & _).
  exists (root ++ before ++ l). reflexivity.
Qed.

Lemma GetShowFileName_paths (s : providers.Show) :
  GetShowFileName s
  = filepath.Join [providers.PathNameCleaner (providers.Show_ s);
                   seasonPath s; episodePath s].
Proof.
  reflexivity.
Qed.

Lemma episodePath_mp4 (s : providers.Show) :
  exists x, episodePath s = x ++ ".mp4".
Proof.
  unfold episodePath. cbv zeta.
  destruct (providers.Episode s =? ""), (providers.Title s =? ""),
    (providers.Title s =? providers.Show_ s); cbn [andb orb negb];
    rewrite <- ?append_assoc; eexists; reflexivity.
Qed.

Lemma seasonPath_long (s : providers.Show) :
  3 <= String.length (seasonPath s).
Proof.
  unfold seasonPath.
  destruct (providers.Season s =? ""); rewrite length_append; cbn; lia.
Qed.

Lemma Join_keeps_suffix (a b x t : string) :
  (b =? "") = false -> noSlash t = true -> 3 <= String.length t ->
  endsWith t (filepath.Join [a; b; x ++ t]).
Proof.
  intros B T L. cbn [filepath.Join]. rewrite B.
  unfold strings.Join. cbn [String.concat].
  destruct (a =? "").
  - rewrite <- !append_assoc. apply Clean_keeps_suffix; assumption.
  - rewrite <- !append_assoc. apply Clean_keeps_suffix; assumption.
Qed.

(** X16: the path that [GetShowFileName] returns ends with [.mp4],
    whatever the show and whatever the cleaners and [Format2Digits]
    return. *)
Theorem GetShowFileName_mp4 (s : providers.Show) :
  endsWith ".mp4" (GetShowFileName s).
Proof.
  rewrite GetShowFileName_paths.
  destruct (episodePath_mp4 s) as [x ->].
  apply Join_keeps_suffix.
  - apply long_not_special, seasonPath_long.
  - reflexivity.
  - cbn. lia.
Qed.

Lemma prefix_slash_noSlash (a rest : string) :
  noSlash a = true -> (a =? "") = false -> prefix "/" (a ++ rest) = false.
Proof.
  destruct a as [|c a]; [discriminate|].
  cbn [noSlash append prefix].
  intros H _. apply andb_true_iff in H. destruct H as [C _].
  apply negb_true_iff in C.
  destruct (ascii_dec "/" c) as [<-|]; [discriminate | reflexivity].
Qed.

(** [Join] of three elements that [Clean] keeps as they are puts the
    separator between them. *)
Lemma Join_plain (a b c : string) :
  plain a = true -> plain b = true -> plain c = true ->
  filepath.Join [a; b; c] = a ++ "/" ++ b ++ "/" ++ c.
Proof.
  intros (Na & A0 & A1 & A2)%plain_spec (Nb & B0 & B1 & B2)%plain_spec
         (Nc & C0 & C1 & C2)%plain_spec.
  cbn [filepath.Join]. rewrite A0.
  unfold strings.Join. cbn [String.concat].
  unfold filepath.Clean, strings.Join.
  rewrite (prefix_slash_noSlash a _ Na A0).
  change (a ++ "/" ++ b ++ "/" ++ c) with (a ++ String "/" (b ++ String "/" c)).
  rewrite (split_append_slash a _ Na), (split_append_slash b _ Nb),
    (split_noSlash c Nc).
  cbn [filepath.cleanElems].
  rewrite A0, A1, A2, B0, B1, B2, C0, C1, C2.
  cbn [orb rev List.app String.concat].
  change ("" ++ a ++ "/" ++ b ++ "/" ++ c) with (a ++ String "/" (b ++ String "/" c)).
  destruct a as [|x a]; [discriminate | reflexivity].
Qed.

(** X17: when the cleaned name of the show is an element that [Clean]
    keeps and neither the season path nor the episode path has a
    separator, the path is the three of them with the separator between
    them. *)
Theorem GetShowFileName_plain (s : providers.Show) :
  plain (providers.PathNameCleaner (providers.Show_ s)) = true ->
  noSlash (seasonPath s) = true ->
  noSlash (episodePath s) = true ->
  GetShowFileName s
  = providers.PathNameCleaner (providers.Show_ s)
    ++ "/" ++ seasonPath s ++ "/" ++ episodePath s.
Proof.
  intros A B C. rewrite GetShowFileName_paths. apply Join_plain.
  - exact A.
  - unfold plain. rewrite B.
    destruct (long_not_special _ (seasonPath_long s)) as (-> & -> & ->).
    reflexivity.
  - unfold plain. rewrite C.
    destruct (episodePath_mp4 s) as [x E].
    assert (L : 3 <= String.length (episodePath s))
      by (rewrite E, length_append; cbn; lia).
    destruct (long_not_special _ L) as (-> & -> & ->).
    reflexivity.
Qed.

End PathFacts.

(** ** More of the provider on the canned getter *)
Section MoreRuns.

#[local] Existing Instance canned.client_getter.
#[local] Existing Instance canned.stream_Decoder.
#[local] Existing Instance canned.byName.

(** The getter knows no URL: the transport fails. *)
Lemma Shows_transport_failure_witness :
  Get (ftv_getter (canned.world [])) (Sprintf_d WSListURL 3000)
  = (inr "404 Not Found", canned.mkClient [] 1)
  /\ Shows canned.TrimSpace ["Drama"] (canned.world [])
     = ([], mkWorld (canned.mkClient [] 1) [Sprintf_d WSListURL 3000]
                    [mkLog "[%s] Can't call catalog API: %q" ["404 Not Found"]]).
Proof.
  split; [reflexivity|].
  apply (Shows_transport_failure canned.TrimSpace ["Drama"] (canned.world [])
           "404 Not Found" (canned.mkClient [] 1)).
  reflexivity.
Defined.

Lemma Shows_emits_matches_witness :
  In canned.pilot
     (fst (Shows canned.TrimSpace ["Drama"] (canned.world canned.catalog3)))
  /\ (exists e, In e (entriesOf (canned.world canned.catalog3))
                /\ canned.pilot = showOf canned.TrimSpace e)
  /\ providers.IsShowMatch ["Drama"] canned.pilot = true
  /\ providers.Provider canned.pilot = "francetv"
  /\ providers.DRM canned.pilot = false.
Proof.
  assert (H : In canned.pilot
                 (fst (Shows canned.TrimSpace ["Drama"]
                             (canned.world canned.catalog3)))).
  { left. reflexivity. }
  split; [exact H|].
  exact (Shows_emits_matches canned.TrimSpace ["Drama"]
           (canned.world canned.catalog3) canned.pilot H).
Defined.

Lemma GetShowInfo_keeps_invariant_witness :
  (providers.Detailed canned.summary = true ->
   providers.StreamURL canned.summary <> "")
  /\ providers.Detailed
       (showAfter (GetShowInfo canned.summary
                               (canned.world (canned.detail canned.twoStreams))))
     = true
  /\ providers.StreamURL
       (showAfter (GetShowInfo canned.summary
                               (canned.world (canned.detail canned.twoStreams))))
     <> "".
Proof.
  assert (I : providers.Detailed canned.summary = true ->
              providers.StreamURL canned.summary <> "") by discriminate.
  split; [exact I|]. split; [reflexivity|].
  apply (GetShowInfo_keeps_invariant canned.summary
           (canned.world (canned.detail canned.twoStreams)) I).
  reflexivity.
Defined.

Lemma GetShowInfo_again_witness :
  errorOf (GetShowInfo canned.summary
                       (canned.world (canned.detail canned.twoStreams)))
  = None
  /\ GetShowInfo
       (showAfter (GetShowInfo canned.summary
                               (canned.world (canned.detail canned.twoStreams))))
       (snd (GetShowInfo canned.summary
                         (canned.world (canned.detail canned.twoStreams))))
     = ((None,
         showAfter (GetShowInfo canned.summary
                                (canned.world (canned.detail canned.twoStreams)))),
        snd (GetShowInfo canned.summary
                         (canned.world (canned.detail canned.twoStreams)))).
Proof.
  split; [reflexivity|].
  apply (GetShowInfo_again canned.summary
           (canned.world (canned.detail canned.twoStreams))).
  reflexivity.
Defined.

Lemma GetShowStreamURL_known_witness :
  providers.StreamURL canned.preset <> ""
  /\ GetShowStreamURL canned.preset (canned.world [])
     = ((("http://old/master.m3u8", None), canned.preset), canned.world []).
Proof.
  split; [discriminate|].
  apply (GetShowStreamURL_known canned.preset (canned.world [])).
  discriminate.
Defined.

Lemma GetShowStreamURL_detailed_without_URL_witness :
  providers.StreamURL (providers.set_Detailed true canned.summary) = ""
  /\ providers.Detailed (providers.set_Detailed true canned.summary) = true
  /\ GetShowStreamURL (providers.set_Detailed true canned.summary)
                      (canned.world (canned.detail canned.twoStreams))
     = ((("", None), providers.set_Detailed true canned.summary),
        canned.world (canned.detail canned.twoStreams)).
Proof.
  split; [reflexivity|]. split; [reflexivity|].
  apply (GetShowStreamURL_detailed_without_URL
           (providers.set_Detailed true canned.summary)
           (canned.world (canned.detail canned.twoStreams)));
    reflexivity.
Defined.

Lemma GetShowStreamURL_error_witness :
  urlErrorOf (GetShowStreamURL canned.summary
                               (canned.world (canned.detail canned.otherFormat)))
  = Some "Can't get detailed information for the show: Can't find hls_v5_os stream for the show"
  /\ urlOf (GetShowStreamURL canned.summary
                             (canned.world (canned.detail canned.otherFormat)))
     = ""
  /\ providers.StreamURL canned.summary = ""
  /\ exists e0,
      errorOf (GetShowInfo canned.summary
                           (canned.world (canned.detail canned.otherFormat)))
      = Some e0
      /\ "Can't get detailed information for the show: Can't find hls_v5_os stream for the show"
         = "Can't get detailed information for the show: " ++ e0.
Proof.
  split; [reflexivity|].
  apply (GetShowStreamURL_error canned.summary
           (canned.world (canned.detail canned.otherFormat))).
  reflexivity.
Defined.

Lemma GetShowStreamURL_nil_gives_URL_witness :
  (providers.Detailed canned.summary = true ->
   providers.StreamURL canned.summary <> "")
  /\ urlErrorOf (GetShowStreamURL canned.summary
                                  (canned.world (canned.detail canned.twoStreams)))
     = None
  /\ urlOf (GetShowStreamURL canned.summary
                             (canned.world (canned.detail canned.twoStreams)))
     <> ""
  /\ urlOf (GetShowStreamURL canned.summary
                             (canned.world (canned.detail canned.twoStreams)))
     = providers.StreamURL
         (showAfter (GetShowStreamURL canned.summary
                       (canned.world (canned.detail canned.twoStreams)))).
Proof.
  assert (I : providers.Detailed canned.summary = true ->
              providers.StreamURL canned.summary <> "") by discriminate.
  split; [exact I|]. split; [reflexivity|].
  apply (GetShowStreamURL_nil_gives_URL canned.summary
           (canned.world (canned.detail canned.twoStreams)) I).
  reflexivity.
Defined.

Lemma GetShowStreamURL_resolves_witness :
  providers.StreamURL canned.summary = ""
  /\ showAfter (GetShowStreamURL canned.summary
                                 (canned.world (canned.detail canned.twoStreams)))
     = showAfter (GetShowInfo canned.summary
                              (canned.world (canned.detail canned.twoStreams)))
  /\ snd (GetShowStreamURL canned.summary
                           (canned.world (canned.detail canned.twoStreams)))
     = snd (GetShowInfo canned.summary
                        (canned.world (canned.detail canned.twoStreams)))
  /\ (urlErrorOf (GetShowStreamURL canned.summary
                    (canned.world (canned.detail canned.twoStreams))) = None
      <-> errorOf (GetShowInfo canned.summary
                     (canned.world (canned.detail canned.twoStreams))) = None).
Proof.
  split; [reflexivity|].
  apply (GetShowStreamURL_resolves canned.summary
           (canned.world (canned.detail canned.twoStreams))).
  reflexivity.
Defined.

Lemma GetShowFileName_plain_witness :
  plain (providers.PathNameCleaner (providers.Show_ canned.pilot)) = true
  /\ noSlash (seasonPath canned.pilot) = true
  /\ noSlash (episodePath canned.pilot) = true
  /\ GetShowFileName canned.pilot
     = providers.PathNameCleaner (providers.Show_ canned.pilot)
       ++ "/" ++ seasonPath canned.pilot ++ "/" ++ episodePath canned.pilot.
Proof.
  split; [reflexivity|]. split; [reflexivity|]. split; [reflexivity|].
  apply (GetShowFileName_plain canned.pilot); reflexivity.
Defined.

End MoreRuns.

End francetv.
